(** * The data edit session of pgsqltoolsservice

    A shallow embedding of
    [pgsqltoolsservice/edit_data/data_editor_session.py]: the class
    [DataEditorSession] with its methods [initialize],
    [on_query_execution_complete], [update_cell],
    [_validate_query_for_session], [_construct_initialize_query] and
    [get_rows].

    Python objects are records, [None]-able attributes are options, the
    dictionary [_session_cache] is a [gmap Z], raised exceptions are values
    of [exn], and a method of the session is a computation in the monad [M]
    that threads the session object and the trace of calls made to the
    caller's callbacks and to the collaborators. *)

From Stdlib Require Import ZArith Ascii String.
From stdpp Require Import base option list gmap strings pretty.

Local Open Scope string_scope.
Local Open Scope list_scope.
Local Open Scope Z_scope.

(** ** Exceptions

    The exceptions the session code raises itself are subclasses of Python's
    [Exception].  A callback or a collaborator may also raise an exception
    that is not one ([KeyboardInterrupt], [SystemExit], [GeneratorExit]):
    [BaseException name] stands for these, and the handler
    [except Exception] of [on_query_execution_complete] does not catch
    them. *)
Inductive exn : Type :=
  | Exception (message : option string)
      (* [raise Exception(message)]; the message may be [None] *)
  | AttributeError (object attribute : string)
      (* attribute access on [None] *)
  | UnboundLocalError (name : string)
      (* a local variable read before any assignment *)
  | IndexError (what : string)
      (* list index out of range *)
  | CollaboratorError (message : string)
      (* an error raised by a collaborator or by a callback *)
  | BaseException (name : string).
      (* an exception outside the [Exception] hierarchy *)

(** [isinstance(e, Exception)] *)
Definition is_Exception (e : exn) : bool :=
  match e with
  | BaseException _ => false
  | _ => true
  end.

Definition Result (A : Type) : Type := exn + A.

Definition result_bind {A B} (f : A → Result B) (r : Result A) : Result B :=
  match r with
  | inl e => inl e
  | inr a => f a
  end.

(** ** Data model of the collaborating modules *)

(** Modelled from the spec: a cell of a result row ([DbCellValue] of
    [query_execution.contracts.common], absent from the sources); the
    session reads only its display value. *)
Record DbCellValue : Type := { display_value : string }.

(** Modelled from the spec: a column descriptor of a result set
    ([DbColumn], absent from the sources). *)
Record DbColumn : Type := { column_name : string }.

(** Modelled from the spec: [ResultSet] of [query_execution.result_set],
    absent from the sources: "an ordered, addressable sequence of rows
    already materialized by query execution; each row is an ordered
    sequence of cells with a display value", which "exposes row count,
    ordered columns, and indexable row access". *)
Record ResultSet : Type := {
  columns : list DbColumn;
  rows : list (list DbCellValue);
}.

Definition row_count (rs : ResultSet) : Z := Z.of_nat (length (rows rs)).

(** Modelled from the spec: [ExecutionState] of [query_execution.query],
    absent from the sources.  The session compares the status with
    [EXECUTED] only; the spec names "queued" as a status that is not
    executed. *)
Inductive ExecutionState : Type := QUEUED | EXECUTED.

Global Instance ExecutionState_eq_dec : EqDecision ExecutionState.
Proof. solve_decision. Defined.

(** Modelled from the spec: a batch of a query ([Batch], absent from the
    sources); a batch may hold a result set. *)
Record Batch : Type := { result_set : option ResultSet }.

(** Modelled from the spec: [Query] of [query_execution.query], absent from
    the sources: "a query object (with an execution-status field and at
    least one batch holding a result set)".  The list of batches is a Python
    list, so it may be empty. *)
Record Query : Type := {
  execution_state : ExecutionState;
  batches : list Batch;
}.

(** [class DataEditSessionExecutionState] *)
Record DataEditSessionExecutionState : Type := {
  query : option Query;
  message : option string;
}.

(** Modelled from the spec: a column of the table metadata
    ([EditColumnMetadata], absent from the sources), of which the session
    reads the escaped name. *)
Record EditColumnMetadata : Type := { escaped_name : string }.

(** Modelled from the spec: [EditTableMetadata] of [edit_data], absent from
    the sources: "ordered list of column descriptors (escaped name) plus a
    schema-qualified, escaping-safe table identifier; extended after
    execution with authoritative column descriptors taken from the result
    set" ([db_columns]). *)
Record EditTableMetadata : Type := {
  column_metadata : list EditColumnMetadata;
  escaped_multipart_name : string;
  db_columns : list DbColumn;
}.

(** Modelled from the spec: [EditInitializerFilter] of
    [edit_data.contracts], absent from the sources; [limit_results] is an
    integer or [None]. *)
Record EditInitializerFilter : Type := { limit_results : option Z }.

(** Modelled from the spec: [InitializeEditParams] of
    [edit_data.contracts], absent from the sources. *)
Record InitializeEditParams : Type := {
  schema_name : string;
  object_name : string;
  object_type : string;
  filters : EditInitializerFilter;
}.

(** Modelled from the spec: [EditCell] and [EditRow] of
    [edit_data.contracts], absent from the sources: "row identifier plus,
    per column, the display value and a boolean is-dirty flag".  The session
    builds them as [EditCell(cell.display_value, False)] and
    [EditRow(row_id, cells)]. *)
Record EditCell : Type := {
  cell_value : string;
  is_dirty : bool;
}.

Record EditRow : Type := {
  id : Z;
  cells : list EditCell;
}.

(** Modelled from the spec: [ResultSetSubset] of
    [query_execution.contracts.common], absent from the sources; the session
    reads its [rows].  [ResultSetSubset()] is the empty window. *)
Record ResultSetSubset : Type := { subset_rows : list (list DbCellValue) }.

Definition ResultSetSubset_new : ResultSetSubset := {| subset_rows := [] |}.

(** ** The collaborators

    What the session consumes through narrow interfaces: the driver's
    identifier quoting, the pending-edit entity ([RowEdit], created as
    [RowUpdate]), the window of a result set and the extension of the table
    metadata.  The session is defined, and its properties are proved, for
    every implementation of them.

    - [RowUpdate row_id result_set table_metadata] is the constructor of the
      pending-edit entity; it may raise.
    - [set_cell_value] mutates the entity: it yields the entity after the
      call together with the response or the error raised.
    - [get_edit_row] renders the entity over a row of the result set.
    - [extend] is the in-place extension of the metadata object with the
      columns of the result set; the session's attribute holds the object
      after the call.  An entity keeps the result set and the metadata it
      was constructed with. *)
Class Collaborators : Type := {
  connection : Type;
  quote_ident : connection → string → string;
  EditCellResponse : Type;
  RowEdit : Type;
  RowUpdate : Z → option ResultSet → option EditTableMetadata → Result RowEdit;
  set_cell_value : RowEdit → Z → string → RowEdit * Result EditCellResponse;
  get_edit_row : RowEdit → list DbCellValue → EditRow;
  from_result_set : ResultSet → Z → Z → ResultSetSubset;
  extend : EditTableMetadata → list DbColumn → EditTableMetadata;
}.

(** ** SQL composition ([psycopg2.sql])

    [sql.SQL], [sql.Identifier] and the [Composed] sequences that [join] and
    [format] build; [as_string] renders a literal as it is, an identifier
    through the driver's quoting, a sequence by concatenation. *)
#[warnings="-register-all"]
Inductive Composable : Type :=
  | SQL (s : string)
  | Identifier (s : string)
  | Composed (parts : list Composable).

Fixpoint as_string `{Collaborators} (conn : connection) (c : Composable) : string :=
  match c with
  | SQL s => s
  | Identifier s => quote_ident conn s
  | Composed parts =>
      (fix go (l : list Composable) : string :=
         match l with
         | [] => EmptyString
         | p :: l' => as_string conn p +:+ go l'
         end) parts
  end.

(** [sql.SQL(sep).join(seq)] *)
Fixpoint SQL_join (sep : string) (seq : list Composable) : list Composable :=
  match seq with
  | [] => []
  | [c] => [c]
  | c :: seq' => c :: SQL sep :: SQL_join sep seq'
  end.

(** [sql.SQL('SELECT {0} FROM {1} {2}').format(a0, a1, a2)] *)
Definition SQL_format_select (a0 a1 a2 : Composable) : Composable :=
  Composed [SQL "SELECT "; a0; SQL " FROM "; a1; SQL " "; a2].

(** [str(n)] for an integer. *)
Definition str (n : Z) : string := pretty n.

(** Reading a local variable that may not have been assigned. *)
Definition read_local {A} (name : string) (v : option A) : Result A :=
  match v with
  | Some a => inr a
  | None => inl (UnboundLocalError name)
  end.

(** ** The query builder *)

(** [DataEditorSession._construct_initialize_query].  The local
    [limit_clause] is assigned under the condition only; it is unbound
    otherwise, and is read when the arguments of [format] are evaluated. *)
Definition _construct_initialize_query `{Collaborators} (conn : connection)
    (metadata : EditTableMetadata) (filters : EditInitializerFilter) : Result string :=
  let column_names :=
    (λ column, Identifier (escaped_name column)) <$> column_metadata metadata in
  let limit_clause : option string :=
    match limit_results filters with
    | Some n =>
        if bool_decide (n > 0)
        then Some (String.concat " " [" LIMIT"; str n])
        else None
    | None => None
    end in
  let a0 := Composed (SQL_join ", " column_names) in
  let a1 := Identifier (escaped_multipart_name metadata) in
  result_bind
    (λ limit, inr (as_string conn (SQL_format_select a0 a1 (SQL limit))))
    (read_local "limit_clause" limit_clause).

(** ** The session object and the monad of its methods *)

Section Session.
Context `{Collaborators}.

(** [SmoEditTableMetadataFactory.get(connection, schema_name, object_name,
    object_type)]: the metadata of the object, or the error raised when it
    cannot be resolved. *)
Definition SmoEditTableMetadataFactory : Type :=
  connection → string → string → string → Result EditTableMetadata.

(** The attributes that [DataEditorSession.__init__] sets. *)
Record DataEditorSession : Type := {
  _session_cache : gmap Z RowEdit;
  _metadata_factory : SmoEditTableMetadataFactory;
  _next_row_id : option Z;
  _is_initialized : bool;
  _result_set : option ResultSet;
  table_metadata : option EditTableMetadata;
}.

(** [DataEditorSession(metadata_factory)] *)
Definition DataEditorSession_new (metadata_factory : SmoEditTableMetadataFactory)
    : DataEditorSession :=
  {| _session_cache := ∅;
     _metadata_factory := metadata_factory;
     _next_row_id := None;
     _is_initialized := false;
     _result_set := None;
     table_metadata := None |}.

(** The calls that leave the session: to the metadata factory, to the query
    executer and to the caller's two callbacks. *)
Inductive Event : Type :=
  | MetadataGet (schema_name object_name object_type : string)
  | ExecuteQuery (sql : string)
  | OnSuccess
  | OnFailure (err : exn).

(** The session object together with the calls made so far, oldest
    first. *)
Record World : Type := {
  self : DataEditorSession;
  trace : list Event;
}.

(** A method: from the world before the call to the value returned or the
    exception raised, and the world after.  Assignments made before an
    exception is raised persist. *)
Definition M (A : Type) : Type := World → Result A * World.

Definition ret {A} (a : A) : M A := λ w, (inr a, w).

Definition bind {A B} (f : A → M B) (m : M A) : M B :=
  λ w, match m w with
       | (inl e, w') => (inl e, w')
       | (inr a, w') => f a w'
       end.

Definition raise {A} (e : exn) : M A := λ w, (inl e, w).

(** [try: body except Exception as err: handler(err)]: an exception that
    is not an [Exception] passes through the handler. *)
Definition try_except {A} (body : M A) (handler : exn → M A) : M A :=
  λ w, match body w with
       | (inl err, w') =>
           if is_Exception err then handler err w' else (inl err, w')
       | (inr a, w') => (inr a, w')
       end.

Definition lift {A} (r : Result A) : M A := λ w, (r, w).

Definition get_self : M DataEditorSession := λ w, (inr (self w), w).

Definition put_self (s : DataEditorSession) : M () :=
  λ w, (inr (), {| self := s; trace := trace w |}).

Definition log (ev : Event) : M () :=
  λ w, (inr (), {| self := self w; trace := trace w ++ [ev] |}).
End Session.

Global Instance M_ret `{Collaborators} : MRet M := @ret _.
Global Instance M_bind `{Collaborators} : MBind M := @bind _.

Section Methods.
Context `{Collaborators}.

(** *** Attribute assignments on [self] *)

Definition set_session_cache (c : gmap Z RowEdit) : M () :=
  s ← get_self;
  put_self {| _session_cache := c;
              _metadata_factory := _metadata_factory s;
              _next_row_id := _next_row_id s;
              _is_initialized := _is_initialized s;
              _result_set := _result_set s;
              table_metadata := table_metadata s |}.

Definition set_next_row_id (n : option Z) : M () :=
  s ← get_self;
  put_self {| _session_cache := _session_cache s;
              _metadata_factory := _metadata_factory s;
              _next_row_id := n;
              _is_initialized := _is_initialized s;
              _result_set := _result_set s;
              table_metadata := table_metadata s |}.

Definition set_is_initialized (b : bool) : M () :=
  s ← get_self;
  put_self {| _session_cache := _session_cache s;
              _metadata_factory := _metadata_factory s;
              _next_row_id := _next_row_id s;
              _is_initialized := b;
              _result_set := _result_set s;
              table_metadata := table_metadata s |}.

Definition set_result_set (r : option ResultSet) : M () :=
  s ← get_self;
  put_self {| _session_cache := _session_cache s;
              _metadata_factory := _metadata_factory s;
              _next_row_id := _next_row_id s;
              _is_initialized := _is_initialized s;
              _result_set := r;
              table_metadata := table_metadata s |}.

Definition set_table_metadata (m : option EditTableMetadata) : M () :=
  s ← get_self;
  put_self {| _session_cache := _session_cache s;
              _metadata_factory := _metadata_factory s;
              _next_row_id := _next_row_id s;
              _is_initialized := _is_initialized s;
              _result_set := _result_set s;
              table_metadata := m |}.

(** [obj.attribute] where [obj] may be [None]. *)
Definition getattr {A} (obj : option A) (attribute : string) : M A :=
  match obj with
  | Some a => mret a
  | None => raise (AttributeError "NoneType" attribute)
  end.

(** [l[0]] *)
Definition index0 {A} (l : list A) : M A :=
  match l with
  | a :: _ => mret a
  | [] => raise (IndexError "list index out of range")
  end.

(** *** Callbacks and the query executer

    A callback is the caller's code: the session sees whether a call to it
    returns or raises.  Each call is recorded in the trace. *)
Definition Callable (A : Type) : Type := A → Result ().

Definition call_on_success (on_success : Callable ()) : M () :=
  log OnSuccess;; lift (on_success ()).

Definition call_on_failure (on_failure : Callable exn) (err : exn) : M () :=
  log (OnFailure err);; lift (on_failure err).

(** The query executer receives the SQL text and the completion callback;
    when, whether and how often it calls the completion callback is its
    own business. *)
Definition QueryExecuter : Type :=
  string → (DataEditSessionExecutionState → M ()) → M ().

Definition call_query_executer (query_executer : QueryExecuter) (sql : string)
    (on_complete : DataEditSessionExecutionState → M ()) : M () :=
  log (ExecuteQuery sql);; query_executer sql on_complete.

Definition call_metadata_get (conn : connection) (p : InitializeEditParams)
    : M EditTableMetadata :=
  s ← get_self;
  log (MetadataGet (schema_name p) (object_name p) (object_type p));;
  lift (_metadata_factory s conn (schema_name p) (object_name p) (object_type p)).

(** *** The methods of [DataEditorSession] *)

(** [_validate_query_for_session] *)
Definition _validate_query_for_session (query : Query) : M () :=
  if decide (execution_state query ≠ EXECUTED)
  then raise (Exception (Some "Execution not completed"))
  else mret ().

(** [on_query_execution_complete]: the body of the [try], then the whole
    method with its handler. *)
Definition on_query_execution_complete_body
    (execution_state : DataEditSessionExecutionState) (on_success : Callable ())
    : M () :=
  q ← match query execution_state with
      | None => raise (Exception (message execution_state))
      | Some q => mret q
      end;
  _validate_query_for_session q;;
  batch ← index0 (batches q);
  set_result_set (result_set batch);;
  s ← get_self;
  rs ← getattr (_result_set s) "row_count";
  set_next_row_id (Some (row_count rs));;
  set_is_initialized true;;
  s ← get_self;
  md ← getattr (table_metadata s) "extend";
  rs ← getattr (_result_set s) "columns";
  set_table_metadata (Some (extend md (columns rs)));;
  call_on_success on_success.

Definition on_query_execution_complete
    (execution_state : DataEditSessionExecutionState)
    (on_success : Callable ()) (on_failure : Callable exn) : M () :=
  try_except
    (on_query_execution_complete_body execution_state on_success)
    (λ err, call_on_failure on_failure err).

(** [initialize] *)
Definition initialize (initailize_edit_params : InitializeEditParams)
    (conn : connection) (query_executer : QueryExecuter)
    (on_success : Callable ()) (on_failure : Callable exn) : M () :=
  md ← call_metadata_get conn initailize_edit_params;
  set_table_metadata (Some md);;
  sql ← lift (_construct_initialize_query conn md (filters initailize_edit_params));
  call_query_executer query_executer sql
    (λ execution_state,
       on_query_execution_complete execution_state on_success on_failure).

(** [update_cell].  The entity found in, or inserted into, the cache is the
    object that [set_cell_value] mutates, so the cache holds the entity
    after the call, whether the call returns or raises. *)
Definition update_cell (row_id column_index : Z) (new_value : string)
    : M EditCellResponse :=
  s ← get_self;
  edit_row ← match _session_cache s !! row_id with
             | Some edit_row => mret edit_row
             | None =>
                 edit_row ← lift (RowUpdate row_id (_result_set s) (table_metadata s));
                 set_session_cache (<[row_id := edit_row]> (_session_cache s));;
                 mret edit_row
             end;
  let '(edit_row', result) := set_cell_value edit_row column_index new_value in
  s ← get_self;
  set_session_cache (<[row_id := edit_row']> (_session_cache s));;
  lift result.

(** The loop of [get_rows] over [enumerate(subset.rows)]: [index] is the
    position of the first row of [todo] and [edit_rows] the list built so
    far. *)
Fixpoint get_rows_loop (subset : ResultSetSubset) (start_index : Z)
    (index : Z) (todo : list (list DbCellValue)) (edit_rows : list EditRow)
    : M (list EditRow) :=
  match todo with
  | [] => mret edit_rows
  | row :: todo' =>
      let row_id := start_index + index in
      s ← get_self;
      edit_row ← match _session_cache s !! row_id with
                 | Some cache =>
                     row0 ← index0 (subset_rows subset);
                     mret (get_edit_row cache row0)
                 | None =>
                     mret {| id := row_id;
                             cells := (λ cell, {| cell_value := display_value cell;
                                                  is_dirty := false |}) <$> row |}
                 end;
      get_rows_loop subset start_index (index + 1) todo' (edit_rows ++ [edit_row])
  end.

(** [get_rows] *)
Definition get_rows (owner_uri : string) (start_index end_index : Z)
    : M (list EditRow) :=
  s ← get_self;
  rs ← getattr (_result_set s) "row_count";
  let subset :=
    if bool_decide (start_index < row_count rs)
    then from_result_set rs start_index end_index
    else ResultSetSubset_new in
  get_rows_loop subset start_index 0 (subset_rows subset) [].
End Methods.

(** ** An implementation of the collaborators

    The pending-update entity, the window of a result set and the metadata
    extension as the specification describes them, and PostgreSQL's
    identifier quoting.  The session is run with them on concrete inputs. *)

Module SpecModel.

(** Modelled from the spec: [EditCellResponse] of [edit_data.contracts],
    absent from the sources: "a structured result describing the new display
    value and dirty state". *)
Record CellResponse : Type := {
  response_cell : EditCell;
  is_row_dirty : bool;
}.

(** Modelled from the spec: the pending-update entity [RowUpdate] of
    [edit_data.update_management], absent from the sources: "a new
    pending-update entity bound to that row, the session's result set, and
    table metadata", "holding, per column index, the new display value and
    an indicator it differs from the original". *)
Record RowUpdateEntity : Type := {
  row_id : Z;
  bound_result_set : option ResultSet;
  bound_table_metadata : option EditTableMetadata;
  _cell_updates : gmap Z string;
}.

(** Modelled from the spec: the constructor of [RowUpdate], absent from the
    sources; it binds its three arguments and starts with no cell update. *)
Definition RowUpdate_new (rid : Z) (rs : option ResultSet)
    (md : option EditTableMetadata) : Result RowUpdateEntity :=
  inr {| row_id := rid;
         bound_result_set := rs;
         bound_table_metadata := md;
         _cell_updates := ∅ |}.

(** Modelled from the spec: [RowUpdate.set_cell_value], absent from the
    sources, "which validates the column index against metadata bounds
    [...] and returns a structured result describing the new display value
    and dirty state".  The convertibility of the value to the column's
    declared type is left out: the column descriptors carry no type here. *)
Definition RowUpdate_set_cell_value (e : RowUpdateEntity) (column_index : Z)
    (new_value : string) : RowUpdateEntity * Result CellResponse :=
  match bound_table_metadata e with
  | None => (e, inl (AttributeError "NoneType" "column_metadata"))
  | Some md =>
      if bool_decide (0 ≤ column_index < Z.of_nat (length (column_metadata md)))
      then ({| row_id := row_id e;
               bound_result_set := bound_result_set e;
               bound_table_metadata := bound_table_metadata e;
               _cell_updates := <[column_index := new_value]> (_cell_updates e) |},
            inr {| response_cell := {| cell_value := new_value; is_dirty := true |};
                   is_row_dirty := true |})
      else (e, inl (CollaboratorError "column index out of range"))
  end.

(** Modelled from the spec: [RowUpdate.get_edit_row], absent from the
    sources: "dirty=true for column c and the new value, and dirty=false
    with original values for all other columns". *)
Definition RowUpdate_get_edit_row (e : RowUpdateEntity)
    (original_row : list DbCellValue) : EditRow :=
  {| id := row_id e;
     cells := imap (λ i cell,
                match _cell_updates e !! Z.of_nat i with
                | Some new_value => {| cell_value := new_value; is_dirty := true |}
                | None => {| cell_value := display_value cell; is_dirty := false |}
                end) original_row |}.

(** Modelled from the spec: [ResultSetSubset.from_result_set], absent from
    the sources: "take the row window [startIndex, endIndex) from the result
    set (external collaborator clamps/interprets the end bound)". *)
Definition window (rs : ResultSet) (start_index end_index : Z) : ResultSetSubset :=
  let first := Z.max 0 start_index in
  {| subset_rows := take (Z.to_nat (end_index - first))
                         (drop (Z.to_nat first) (rows rs)) |}.

(** Modelled from the spec: [EditTableMetadata.extend], absent from the
    sources: the metadata is "extended after execution with authoritative
    column descriptors taken from the result set". *)
Definition extend_metadata (md : EditTableMetadata) (cols : list DbColumn)
    : EditTableMetadata :=
  {| column_metadata := column_metadata md;
     escaped_multipart_name := escaped_multipart_name md;
     db_columns := db_columns md ++ cols |}.

(** PostgreSQL's quoting of an identifier: enclosed in double quotes, each
    double quote inside written twice; the driver reads the name as a C
    string, so the name ends at its first NUL character. *)
Definition dquote : ascii := "034"%char.

Fixpoint escape_dquote (s : string) : string :=
  match s with
  | EmptyString => EmptyString
  | String c s' =>
      if Ascii.eqb c "000"%char then EmptyString
      else if Ascii.eqb c dquote
      then String dquote (String dquote (escape_dquote s'))
      else String c (escape_dquote s')
  end.

Definition pg_quote_ident (_ : ()) (s : string) : string :=
  String dquote (escape_dquote s +:+ String dquote EmptyString).

Definition collaborators : Collaborators :=
  {| connection := ();
     quote_ident := pg_quote_ident;
     EditCellResponse := CellResponse;
     RowEdit := RowUpdateEntity;
     RowUpdate := RowUpdate_new;
     set_cell_value := RowUpdate_set_cell_value;
     get_edit_row := RowUpdate_get_edit_row;
     from_result_set := window;
     extend := extend_metadata |}.

(** *** Concrete inputs: the table [t] with columns [id] and [name] and the
    three rows (1, a), (2, b), (3, c). *)

Definition t_metadata : EditTableMetadata :=
  {| column_metadata := [ {| escaped_name := "id" |}; {| escaped_name := "name" |} ];
     escaped_multipart_name := "public.t";
     db_columns := [] |}.

Definition t_row (a b : string) : list DbCellValue :=
  [ {| display_value := a |}; {| display_value := b |} ].

Definition t_result_set : ResultSet :=
  {| columns := [ {| column_name := "id" |}; {| column_name := "name" |} ];
     rows := [ t_row "1" "a"; t_row "2" "b"; t_row "3" "c" ] |}.

(** A metadata factory that resolves every object to [t]. *)
Definition t_factory : @SmoEditTableMetadataFactory collaborators :=
  λ _ _ _ _, inr t_metadata.

(** A metadata factory that resolves nothing. *)
Definition failing_factory : @SmoEditTableMetadataFactory collaborators :=
  λ _ _ _ _, inl (CollaboratorError "object not found").

Definition t_params (limit : option Z) : InitializeEditParams :=
  {| schema_name := "public";
     object_name := "t";
     object_type := "table";
     filters := {| limit_results := limit |} |}.

(** The execution states an executer may report. *)
Definition executed : DataEditSessionExecutionState :=
  {| query := Some {| execution_state := EXECUTED;
                      batches := [ {| result_set := Some t_result_set |} ] |};
     message := None |}.

Definition queued : DataEditSessionExecutionState :=
  {| query := Some {| execution_state := QUEUED;
                      batches := [ {| result_set := Some t_result_set |} ] |};
     message := None |}.

Definition errored : DataEditSessionExecutionState :=
  {| query := None; message := Some "connection lost" |}.

(** An executer that completes at once, calling the completion callback
    once with the given execution state. *)
Definition completing_executer (es : DataEditSessionExecutionState)
    : @QueryExecuter collaborators :=
  λ _ on_complete, on_complete es.

(** An executer that returns at once and completes later, if ever. *)
Definition deferring_executer : @QueryExecuter collaborators :=
  λ _ _, mret ().

(** Callbacks that return, and a success callback that raises. *)
Definition returning {A} : Callable A := λ _, inr ().

Definition raising_on_success : Callable () :=
  λ _, inl (CollaboratorError "response not sent").

(** A failure callback that raises the error it is given. *)
Definition reraising : Callable exn := λ err, inl err.

(** An executed query without any batch. *)
Definition executed_without_batch : DataEditSessionExecutionState :=
  {| query := Some {| execution_state := EXECUTED; batches := [] |};
     message := None |}.

(** A new session, before any call. *)
Definition new_world (factory : @SmoEditTableMetadataFactory collaborators)
    : @World collaborators :=
  {| self := DataEditorSession_new factory; trace := [] |}.

(** The session after [initialize] has completed with the three rows. *)
Definition ready_world : @World collaborators :=
  (@initialize collaborators (t_params (Some 10)) () (completing_executer executed)
     returning returning (new_world t_factory)).2.

(** The session after [initialize] has returned and before the execution
    completes. *)
Definition initializing_world : @World collaborators :=
  (@initialize collaborators (t_params (Some 10)) () deferring_executer
     returning returning (new_world t_factory)).2.

(** The statement that [initialize] builds for [t] with the limit 10. *)
Definition t_sql : string :=
  "SELECT " +:+ pg_quote_ident () "id" +:+ ", " +:+ pg_quote_ident () "name"
  +:+ " FROM " +:+ pg_quote_ident () "public.t" +:+ "  LIMIT 10".

Definition clean (value : string) : EditCell :=
  {| cell_value := value; is_dirty := false |}.

Definition dirty (value : string) : EditCell :=
  {| cell_value := value; is_dirty := true |}.

End SpecModel.

(** ** What the completion callback does with a failed execution

    [fails_before_adoption es err]: the execution state [es] makes the body
    of the completion callback raise [err] before the first assignment to
    the session: the query is [None], or it is not in the executed status,
    or it has no first batch. *)
Inductive fails_before_adoption : DataEditSessionExecutionState → exn → Prop :=
  | fails_no_query es :
      query es = None →
      fails_before_adoption es (Exception (message es))
  | fails_not_executed es q :
      query es = Some q →
      execution_state q ≠ EXECUTED →
      fails_before_adoption es (Exception (Some "Execution not completed"))
  | fails_no_batch es q :
      query es = Some q →
      execution_state q = EXECUTED →
      batches q = [] →
      fails_before_adoption es (IndexError "list index out of range").

(** [fails_without_adoption s es err]: in the session [s], the execution
    state [es] makes the body of the completion callback raise [err] with
    the session as it was: it fails before adoption, or the first batch
    holds no result set and the session holds none either (the assignment
    of [None] to [_result_set] then changes nothing, and reading the row
    count raises). *)
Inductive fails_without_adoption `{Collaborators} (s : DataEditorSession)
    : DataEditSessionExecutionState → exn → Prop :=
  | fails_early es err :
      fails_before_adoption es err →
      fails_without_adoption s es err
  | fails_no_result_set es q b bs :
      query es = Some q →
      execution_state q = EXECUTED →
      batches q = b :: bs →
      result_set b = None →
      _result_set s = None →
      fails_without_adoption s es (AttributeError "NoneType" "row_count").

(** The number of calls to each callback in a list of events. *)
Fixpoint successes `{Collaborators} (evs : list Event) : nat :=
  match evs with
  | [] => 0
  | OnSuccess :: evs' => S (successes evs')
  | _ :: evs' => successes evs'
  end.


(** A session that has not adopted a result set: the completion callback
    assigns [_result_set] and, right after, sets [_is_initialized]. *)
Definition uninitialized `{Collaborators} (s : DataEditorSession) : Prop :=
  _is_initialized s = false ∧ _result_set s = None.

(** The session with another cache, all other attributes kept. *)
Definition with_session_cache `{Collaborators} (c : gmap Z RowEdit)
    (w : World) : World :=
  {| self := {| _session_cache := c;
                _metadata_factory := _metadata_factory (self w);
                _next_row_id := _next_row_id (self w);
                _is_initialized := _is_initialized (self w);
                _result_set := _result_set (self w);
                table_metadata := table_metadata (self w) |};
     trace := trace w |}.

(** The [EditRow] that one iteration of the loop of [get_rows] appends for
    the row [row] with identifier [row_id], where [row0] is [subset.rows[0]]. *)
Definition rendered_row `{Collaborators} (cache : gmap Z RowEdit)
    (row0 : list DbCellValue) (row_id : Z) (row : list DbCellValue) : EditRow :=
  match cache !! row_id with
  | Some edit => get_edit_row edit row0
  | None =>
      {| id := row_id;
         cells := (λ cell, {| cell_value := display_value cell;
                              is_dirty := false |}) <$> row |}
  end.

(** * Properties *)

Lemma append_empty_r (s : string) : s +:+ EmptyString = s.
Proof. induction s as [|c s IH]; [done|]. exact (f_equal (String c) IH). Qed.

Section QueryBuilder.
Context `{Collaborators}.

(** With a positive limit the builder returns the SELECT statement followed
    by the limit clause. *)
Lemma construct_initialize_query_with_limit (conn : connection)
    (md : EditTableMetadata) (fs : EditInitializerFilter) (n : Z) :
  limit_results fs = Some n →
  n > 0 →
  _construct_initialize_query conn md fs =
    inr ("SELECT "
         +:+ as_string conn (Composed (SQL_join ", "
               ((λ column, Identifier (escaped_name column)) <$> column_metadata md)))
         +:+ " FROM " +:+ quote_ident conn (escaped_multipart_name md)
         +:+ " " +:+ (" LIMIT " +:+ str n)).
Proof.
  intros Hl Hn. unfold _construct_initialize_query. rewrite Hl.
  rewrite bool_decide_eq_true_2 by done.
  cbn [read_local result_bind SQL_format_select as_string String.concat].
  by rewrite append_empty_r.
Qed.

(** When [limit_results] is [None] or not positive, the local
    [limit_clause] is never assigned, and reading it raises
    [UnboundLocalError]. *)
Lemma construct_initialize_query_unbound_limit (conn : connection)
    (md : EditTableMetadata) (fs : EditInitializerFilter) :
  (∀ n, limit_results fs = Some n → n ≤ 0) →
  _construct_initialize_query conn md fs = inl (UnboundLocalError "limit_clause").
Proof.
  intros Hn. unfold _construct_initialize_query.
  destruct (limit_results fs) as [n|] eqn:Hl; [|done].
  rewrite bool_decide_eq_false_2; [done|].
  specialize (Hn n eq_refl). lia.
Qed.

(** C1 (the code at the failing inputs): for every table metadata, the
    builder called with no limit ([limit_results] is [None]) or with the
    limit 0 returns no SELECT statement: it raises [UnboundLocalError] for
    the local [limit_clause]. *)
Theorem construct_initialize_query_no_limit_raises (conn : connection)
    (md : EditTableMetadata) :
  _construct_initialize_query conn md {| limit_results := None |}
    = inl (UnboundLocalError "limit_clause") ∧
  _construct_initialize_query conn md {| limit_results := Some 0 |}
    = inl (UnboundLocalError "limit_clause").
Proof.
  split; apply construct_initialize_query_unbound_limit; cbn; intros n Hn;
    [discriminate | injection Hn as <-; lia].
Qed.

End QueryBuilder.

Section SessionProperties.
Context `{Collaborators}.

(** Unfolding the monad and the attribute assignments. *)
Ltac run :=
  unfold on_query_execution_complete, on_query_execution_complete_body,
    initialize, update_cell, get_rows, _validate_query_for_session,
    call_on_success, call_on_failure, call_query_executer, call_metadata_get,
    set_session_cache, set_next_row_id, set_is_initialized, set_result_set,
    set_table_metadata, getattr, index0, try_except,
    mbind, mret, M_bind, M_ret, bind, ret, raise, lift, get_self, put_self, log;
  cbn.

(** The body of the completion callback raises [err], and leaves the world
    as it was, on an execution state that fails without adoption. *)
Lemma body_fails_without_adoption (w : World)
    (es : DataEditSessionExecutionState) (err : exn) (on_success : Callable ()) :
  fails_without_adoption (self w) es err →
  on_query_execution_complete_body es on_success w = (inl err, w).
Proof.
  intros [es' err' Hf | es' q b bs Hq Hs Hb Hr Hn].
  - destruct Hf as [es0 Hq | es0 q Hq Hs | es0 q Hq Hs Hb]; run; rewrite Hq; cbn.
    + done.
    + by rewrite decide_True.
    + rewrite decide_False by (intros Hne; by apply Hne). by rewrite Hb.
  - run. rewrite Hq. cbn.
    rewrite decide_False by (intros Hne; by apply Hne). rewrite Hb. cbn.
    rewrite Hr. cbn. destruct w as [[c f n i r m] t]. cbn in Hn. by subst r.
Qed.

(** The body of the completion callback on an executed query whose first
    batch holds a result set, in a session that holds table metadata: the
    four assignments, then the call to [on_success]. *)
Lemma body_adopts (w : World) (es : DataEditSessionExecutionState) (q : Query)
    (b : Batch) (bs : list Batch) (rs : ResultSet) (md : EditTableMetadata)
    (on_success : Callable ()) :
  query es = Some q →
  execution_state q = EXECUTED →
  batches q = b :: bs →
  result_set b = Some rs →
  table_metadata (self w) = Some md →
  on_query_execution_complete_body es on_success w =
    (on_success (),
     {| self := {| _session_cache := _session_cache (self w);
                   _metadata_factory := _metadata_factory (self w);
                   _next_row_id := Some (row_count rs);
                   _is_initialized := true;
                   _result_set := Some rs;
                   table_metadata := Some (extend md (columns rs)) |};
        trace := trace w ++ [OnSuccess] |}).
Proof.
  intros Hq Hs Hb Hr Hm. run. rewrite Hq. cbn.
  rewrite decide_False by (intros Hne; by apply Hne). rewrite Hb. cbn.
  rewrite Hr. cbn. rewrite Hm. cbn. by destruct (on_success ()).
Qed.


(** The errors of a failed execution are [Exception]s. *)
Lemma fails_without_adoption_is_Exception (s : DataEditorSession)
    (es : DataEditSessionExecutionState) (err : exn) :
  fails_without_adoption s es err → is_Exception err = true.
Proof. intros [es' err' [] | ]; done. Qed.

(** The completion callback on an execution state that fails without
    adoption: one call to [on_failure], whose outcome is the outcome of the
    callback, and the session object as it was. *)
Lemma on_query_execution_complete_fails (w : World)
    (es : DataEditSessionExecutionState) (err : exn)
    (on_success : Callable ()) (on_failure : Callable exn) :
  fails_without_adoption (self w) es err →
  on_query_execution_complete es on_success on_failure w =
    (on_failure err, {| self := self w; trace := trace w ++ [OnFailure err] |}).
Proof.
  intros Hf. unfold on_query_execution_complete, try_except.
  rewrite (body_fails_without_adoption w es err on_success Hf).
  rewrite (fails_without_adoption_is_Exception (self w) es err Hf).
  run. by destruct (on_failure err).
Qed.

(** A new session is uninitialized. *)
Lemma new_session_uninitialized (factory : SmoEditTableMetadataFactory) :
  uninitialized (DataEditorSession_new factory).
Proof. by split. Qed.

(** The completion callback keeps the relation between the flag and the
    result set: a session whose initialized flag is unset holds no result
    set. *)
Lemma on_query_execution_complete_flag (w : World)
    (es : DataEditSessionExecutionState)
    (on_success : Callable ()) (on_failure : Callable exn) :
  (_is_initialized (self w) = false → _result_set (self w) = None) →
  let w' := (on_query_execution_complete es on_success on_failure w).2 in
  _is_initialized (self w') = false → _result_set (self w') = None.
Proof.
  intros Hinv w'. subst w'. run.
  destruct (query es) as [q|]; cbn; [|done].
  destruct (decide (execution_state q ≠ EXECUTED)); cbn; [done|].
  destruct (batches q) as [|b bs]; cbn; [done|].
  destruct (result_set b) as [rs|]; cbn; [|done].
  destruct (table_metadata (self w)) as [md|]; cbn; [|done].
  destruct (on_success ()) as [err|[]]; [|done].
  by destruct (is_Exception err).
Qed.

(** C4 (amended): when the completion callback fails on a null query, on a
    query that is not in the executed status, on a query without a first
    batch or, in a session that holds no result set, on a first batch
    without a result set, [on_failure] is called exactly once with the
    error, [on_success] is not called, and the session object is left as it
    was: no result set is adopted, the next row identifier is not set and the
    initialized flag keeps its value. *)
Theorem on_query_execution_complete_failure_keeps_session (w : World)
    (es : DataEditSessionExecutionState) (err : exn)
    (on_success : Callable ()) (on_failure : Callable exn) :
  fails_without_adoption (self w) es err →
  let w' := (on_query_execution_complete es on_success on_failure w).2 in
  trace w' = trace w ++ [OnFailure err] ∧
  self w' = self w ∧
  _result_set (self w') = _result_set (self w) ∧
  _next_row_id (self w') = _next_row_id (self w) ∧
  _is_initialized (self w') = _is_initialized (self w).
Proof.
  intros Hf w'. subst w'.
  by rewrite (on_query_execution_complete_fails w es err on_success on_failure Hf).
Qed.


(** C7 (amended): after the completion callback has run on a non-null
    query in the executed status whose first batch holds a result set, in a
    session whose table metadata has been resolved, the session's result
    set is the first batch's result set, its next row identifier is that
    result set's row count, the session is marked initialized, the table metadata is
    extended with the result set's columns, and [on_success] has been
    called. *)
Theorem on_query_execution_complete_adopts (w : World)
    (es : DataEditSessionExecutionState) (q : Query) (b : Batch)
    (bs : list Batch) (rs : ResultSet) (md : EditTableMetadata)
    (on_success : Callable ()) (on_failure : Callable exn) :
  query es = Some q →
  execution_state q = EXECUTED →
  batches q = b :: bs →
  result_set b = Some rs →
  table_metadata (self w) = Some md →
  let w' := (on_query_execution_complete es on_success on_failure w).2 in
  _result_set (self w') = Some rs ∧
  _next_row_id (self w') = Some (row_count rs) ∧
  _is_initialized (self w') = true ∧
  table_metadata (self w') = Some (extend md (columns rs)) ∧
  _session_cache (self w') = _session_cache (self w) ∧
  ∃ evs, trace w' = trace w ++ OnSuccess :: evs ∧ successes evs = 0%nat.
Proof.
  intros Hq Hs Hb Hr Hm w'. subst w'.
  unfold on_query_execution_complete, try_except.
  rewrite (body_adopts w es q b bs rs md on_success Hq Hs Hb Hr Hm).
  destruct (on_success ()) as [err|[]]; [destruct (is_Exception err)|]; run.
  - repeat split. exists [OnFailure err]. by rewrite <- app_assoc.
  - repeat split. by exists [].
  - repeat split. by exists [].
Qed.

(** C6 (amended): a failure of the metadata factory leaves [initialize] as
    the exception raised, after one call to the factory and with no call to
    the executer or to a callback.  Once the metadata is resolved and the
    query built, [initialize] does nothing but call the executer, once, with
    the query and the completion callback: its outcome is the executer's,
    for every executer.  The completion callback, wherever it is called,
    hands a failed execution (a null query, a query that is not executed) to
    [on_failure], once, and its outcome is the outcome of that call.  So the
    session itself never raises an execution failure: with an executer that
    completes at once and an [on_failure] that returns, [initialize]
    returns. *)
Theorem initialize_error_propagation (w : World) (p : InitializeEditParams)
    (conn : connection) (on_success : Callable ()) (on_failure : Callable exn) :
  (∀ (query_executer : QueryExecuter) (e : exn),
     _metadata_factory (self w) conn (schema_name p) (object_name p) (object_type p)
       = inl e →
     initialize p conn query_executer on_success on_failure w =
       (inl e,
        {| self := self w;
           trace := trace w ++ [MetadataGet (schema_name p) (object_name p) (object_type p)] |}))
  ∧
  (∀ (query_executer : QueryExecuter) (md : EditTableMetadata) (sql : string),
     _metadata_factory (self w) conn (schema_name p) (object_name p) (object_type p)
       = inr md →
     _construct_initialize_query conn md (filters p) = inr sql →
     initialize p conn query_executer on_success on_failure w =
       query_executer sql
         (λ execution_state,
            on_query_execution_complete execution_state on_success on_failure)
         {| self := {| _session_cache := _session_cache (self w);
                       _metadata_factory := _metadata_factory (self w);
                       _next_row_id := _next_row_id (self w);
                       _is_initialized := _is_initialized (self w);
                       _result_set := _result_set (self w);
                       table_metadata := Some md |};
            trace := trace w ++ [MetadataGet (schema_name p) (object_name p) (object_type p);
                                 ExecuteQuery sql] |})
  ∧
  (∀ (w2 : World) (es : DataEditSessionExecutionState) (err : exn),
     fails_before_adoption es err →
     on_query_execution_complete es on_success on_failure w2 =
       (on_failure err, {| self := self w2; trace := trace w2 ++ [OnFailure err] |}))
  ∧
  (∀ (md : EditTableMetadata) (sql : string)
     (es : DataEditSessionExecutionState) (err : exn),
     _metadata_factory (self w) conn (schema_name p) (object_name p) (object_type p)
       = inr md →
     _construct_initialize_query conn md (filters p) = inr sql →
     fails_before_adoption es err →
     on_failure err = inr () →
     initialize p conn (λ _ on_complete, on_complete es) on_success on_failure w =
       (inr (),
        {| self := {| _session_cache := _session_cache (self w);
                      _metadata_factory := _metadata_factory (self w);
                      _next_row_id := _next_row_id (self w);
                      _is_initialized := _is_initialized (self w);
                      _result_set := _result_set (self w);
                      table_metadata := Some md |};
           trace := trace w ++ [MetadataGet (schema_name p) (object_name p) (object_type p);
                                ExecuteQuery sql; OnFailure err] |})).
Proof.
  assert (Hinit : ∀ (query_executer : QueryExecuter) md sql,
    _metadata_factory (self w) conn (schema_name p) (object_name p) (object_type p)
      = inr md →
    _construct_initialize_query conn md (filters p) = inr sql →
    initialize p conn query_executer on_success on_failure w =
      query_executer sql
        (λ execution_state,
           on_query_execution_complete execution_state on_success on_failure)
        {| self := {| _session_cache := _session_cache (self w);
                      _metadata_factory := _metadata_factory (self w);
                      _next_row_id := _next_row_id (self w);
                      _is_initialized := _is_initialized (self w);
                      _result_set := _result_set (self w);
                      table_metadata := Some md |};
           trace := trace w ++ [MetadataGet (schema_name p) (object_name p) (object_type p);
                                ExecuteQuery sql] |}).
  { intros query_executer md sql Hf Hq.
    unfold initialize, call_metadata_get, call_query_executer, set_table_metadata.
    unfold mbind, M_bind, bind, get_self, log, lift, put_self.
    cbn. rewrite Hf, Hq. cbn. by rewrite <- app_assoc. }
  split; [|split; [exact Hinit|split]].
  - intros query_executer e Hf. run. by rewrite Hf.
  - intros w2 es err He.
    exact (on_query_execution_complete_fails w2 es err on_success on_failure
             (fails_early _ es err He)).
  - intros md sql es err Hf Hq He Hr.
    rewrite (Hinit _ md sql Hf Hq).
    rewrite (on_query_execution_complete_fails _ es err on_success on_failure
               (fails_early _ es err He)).
    cbn. rewrite Hr. by rewrite <- !app_assoc.
Qed.

(** *** [update_cell] *)

(** The row has an entry in the cache: the entry is the entity that
    [set_cell_value] is called on, and the cache holds it afterwards. *)
Lemma update_cell_cached (w : World) (row_id column_index : Z)
    (new_value : string) (e : RowEdit) :
  _session_cache (self w) !! row_id = Some e →
  update_cell row_id column_index new_value w =
    ((set_cell_value e column_index new_value).2,
     with_session_cache
       (<[row_id := (set_cell_value e column_index new_value).1]> (_session_cache (self w))) w).
Proof.
  intros Hc. run. rewrite Hc. cbn.
  by destruct (set_cell_value e column_index new_value) as [e' [err|r]].
Qed.

(** The row has no entry and the constructor returns an entity: it is
    inserted, and [set_cell_value] is called on it. *)
Lemma update_cell_created (w : World) (row_id column_index : Z)
    (new_value : string) (e : RowEdit) :
  _session_cache (self w) !! row_id = None →
  RowUpdate row_id (_result_set (self w)) (table_metadata (self w)) = inr e →
  update_cell row_id column_index new_value w =
    ((set_cell_value e column_index new_value).2,
     with_session_cache
       (<[row_id := (set_cell_value e column_index new_value).1]> (_session_cache (self w))) w).
Proof.
  intros Hc Hn. run. rewrite Hc, Hn. cbn.
  destruct (set_cell_value e column_index new_value) as [e' [err|r]]; cbn;
    unfold with_session_cache; cbn; by rewrite insert_insert_eq.
Qed.

(** The row has no entry and the constructor raises: the error propagates
    and nothing is inserted. *)
Lemma update_cell_not_created (w : World) (row_id column_index : Z)
    (new_value : string) (err : exn) :
  _session_cache (self w) !! row_id = None →
  RowUpdate row_id (_result_set (self w)) (table_metadata (self w)) = inl err →
  update_cell row_id column_index new_value w = (inl err, w).
Proof. intros Hc Hn. run. by rewrite Hc, Hn. Qed.

(** The cache after a call, for any outcome. *)
Lemma update_cell_cache (w : World) (row_id column_index : Z) (new_value : string) :
  _session_cache (self (update_cell row_id column_index new_value w).2)
    = _session_cache (self w)
  ∨ ∃ e, _session_cache (self (update_cell row_id column_index new_value w).2)
           = <[row_id := e]> (_session_cache (self w)).
Proof.
  destruct (_session_cache (self w) !! row_id) as [e|] eqn:Hc.
  - right. rewrite (update_cell_cached w _ _ _ e Hc). by eexists.
  - destruct (RowUpdate row_id (_result_set (self w)) (table_metadata (self w)))
      as [err|e] eqn:Hn.
    + left. by rewrite (update_cell_not_created w _ _ _ err Hc Hn).
    + right. rewrite (update_cell_created w _ _ _ e Hc Hn). by eexists.
Qed.


(** C10: [update_cell] makes no check of [row_id]: for every integer, the
    entity found in the cache under [row_id], or else the entity that the
    constructor returns for [row_id], is the one [set_cell_value] is called
    on, and the cache holds it under [row_id] afterwards, whether or not the
    result set has a row with that identifier. *)
Theorem update_cell_any_row_id (w : World) (row_id column_index : Z)
    (new_value : string) (e : RowEdit) :
  _session_cache (self w) !! row_id = Some e ∨
  (_session_cache (self w) !! row_id = None ∧
   RowUpdate row_id (_result_set (self w)) (table_metadata (self w)) = inr e) →
  let r := update_cell row_id column_index new_value w in
  r.1 = (set_cell_value e column_index new_value).2 ∧
  _session_cache (self r.2) !! row_id = Some (set_cell_value e column_index new_value).1.
Proof.
  intros [Hc | [Hc Hn]] r; subst r.
  - rewrite (update_cell_cached w _ _ _ e Hc). cbn. by rewrite lookup_insert_eq.
  - rewrite (update_cell_created w _ _ _ e Hc Hn). cbn. by rewrite lookup_insert_eq.
Qed.

(** C8: the cache is a map, so it holds at most one entity per row
    identifier.  A call to [update_cell] removes no entry and adds none but
    one for its own [row_id], and leaves the entries of the other rows as
    they were; when an entry for [row_id] exists after a first call, a second
    call with the same [row_id] calls [set_cell_value] on that entry and
    keeps the set of cached rows and the size of the cache. *)
Theorem update_cell_cache_entries (w : World) (row_id : Z)
    (column_index1 column_index2 : Z) (new_value1 new_value2 : string) :
  let w1 := (update_cell row_id column_index1 new_value1 w).2 in
  let r2 := update_cell row_id column_index2 new_value2 w1 in
  dom (_session_cache (self w)) ⊆ dom (_session_cache (self w1)) ∧
  dom (_session_cache (self w1)) ⊆ dom (_session_cache (self w)) ∪ {[row_id]} ∧
  (∀ other, other ≠ row_id →
     _session_cache (self w1) !! other = _session_cache (self w) !! other) ∧
  (∀ e1, _session_cache (self w1) !! row_id = Some e1 →
     r2.1 = (set_cell_value e1 column_index2 new_value2).2 ∧
     _session_cache (self r2.2) !! row_id
       = Some (set_cell_value e1 column_index2 new_value2).1 ∧
     dom (_session_cache (self r2.2)) = dom (_session_cache (self w1)) ∧
     size (_session_cache (self r2.2)) = size (_session_cache (self w1))).
Proof.
  intros w1 r2. subst r2 w1.
  set (w1 := (update_cell row_id column_index1 new_value1 w).2).
  assert (Hw1 : _session_cache (self w1) = _session_cache (self w)
                ∨ ∃ e, _session_cache (self w1) = <[row_id := e]> (_session_cache (self w)))
    by apply update_cell_cache.
  split; [|split; [|split]].
  - destruct Hw1 as [-> | [e ->]]; [done|]. rewrite dom_insert_L.
    apply union_subseteq_r.
  - destruct Hw1 as [-> | [e ->]]; [apply union_subseteq_l|].
    rewrite dom_insert_L. by rewrite (comm_L (∪)).
  - intros other Hne. destruct Hw1 as [-> | [e ->]]; [done|].
    by rewrite lookup_insert_ne.
  - intros e1 He1. rewrite (update_cell_cached w1 _ _ _ e1 He1). cbn.
    assert (Hd : dom (<[row_id := (set_cell_value e1 column_index2 new_value2).1]>
                        (_session_cache (self w1))) = dom (_session_cache (self w1))).
    { rewrite dom_insert_L. apply subseteq_union_1_L, singleton_subseteq_l.
      by apply elem_of_dom_2 in He1. }
    split; [done|]. split; [by rewrite lookup_insert_eq|]. split; [done|].
    by rewrite <- !size_dom, Hd.
Qed.

(** *** [get_rows] *)

(** The loop over a non-empty window returns, after the rows built before,
    one [EditRow] per remaining row; a row with a pending edit is rendered
    over [row0], the first row of the window. *)
Lemma get_rows_loop_renders (subset : ResultSetSubset)
    (row0 : list DbCellValue) (others : list (list DbCellValue))
    (start_index : Z) (todo : list (list DbCellValue)) :
  subset_rows subset = row0 :: others →
  ∀ (index : Z) (edit_rows : list EditRow) (w : World),
    get_rows_loop subset start_index index todo edit_rows w =
      (inr (edit_rows ++
            imap (λ i row, rendered_row (_session_cache (self w)) row0
                             (start_index + index + Z.of_nat i) row) todo),
       w).
Proof.
  intros Hs. induction todo as [|row todo IH]; intros index edit_rows w.
  - cbn. by rewrite app_nil_r.
  - cbn [get_rows_loop]. unfold mbind, M_bind, bind, get_self. cbn.
    assert (Hstep :
      (match _session_cache (self w) !! (start_index + index) with
       | Some cache => row0' ← index0 (subset_rows subset); mret (get_edit_row cache row0')
       | None => mret {| id := start_index + index;
                         cells := (λ cell, {| cell_value := display_value cell;
                                              is_dirty := false |}) <$> row |}
       end) w
      = (inr (rendered_row (_session_cache (self w)) row0 (start_index + index) row), w)).
    { unfold rendered_row. destruct (_session_cache (self w) !! (start_index + index));
        [|done]. rewrite Hs. done. }
    unfold mbind, M_bind, bind in Hstep. rewrite Hstep.
    rewrite IH, <- app_assoc. cbn.
    replace (start_index + index + Z.of_nat 0) with (start_index + index) by lia.
    rewrite (imap_ext
      (λ i row1, rendered_row (_session_cache (self w)) row0
                   (start_index + (index + 1) + Z.of_nat i) row1)
      ((λ i row1, rendered_row (_session_cache (self w)) row0
                    (start_index + index + Z.of_nat i) row1) ∘ S) todo); [done|].
    intros i r _. cbn. f_equal. lia.
Qed.

(** [get_rows] on a session that holds a result set, for a start index
    within its row count: one [EditRow] per row of the window, identified by
    [start_index] plus its offset; a row without a pending edit shows its own
    display values, not dirty; a row with a pending edit is rendered by its
    entity over the first row of the window ([subset.rows[0]]). *)
Lemma get_rows_window (w : World) (rs : ResultSet) (owner_uri : string)
    (start_index end_index : Z) :
  _result_set (self w) = Some rs →
  start_index < row_count rs →
  let window := subset_rows (from_result_set rs start_index end_index) in
  get_rows owner_uri start_index end_index w =
    (inr (imap (λ i row, rendered_row (_session_cache (self w))
                           (default row (head window))
                           (start_index + Z.of_nat i) row) window),
     w).
Proof.
  intros Hr Hlt window. subst window.
  unfold get_rows, getattr, mbind, M_bind, bind, get_self.
  cbn. rewrite Hr. cbn. rewrite bool_decide_eq_true_2 by done.
  destruct (subset_rows (from_result_set rs start_index end_index))
    as [|row0 others] eqn:Hw; [done|].
  rewrite (get_rows_loop_renders _ row0 others start_index _ Hw).
  rewrite app_nil_l.
  rewrite (imap_ext
    (λ i row, rendered_row (_session_cache (self w)) row0
                (start_index + 0 + Z.of_nat i) row)
    (λ i row, rendered_row (_session_cache (self w))
                (default row (head (row0 :: others)))
                (start_index + Z.of_nat i) row) (row0 :: others)); [done|].
  intros i r _. cbn. f_equal. lia.
Qed.

(** C9: on a session that holds a result set, [get_rows] with a start index
    greater than or equal to the row count returns the empty list, raises
    nothing and leaves the session as it was. *)
Theorem get_rows_past_the_end (w : World) (rs : ResultSet) (owner_uri : string)
    (start_index end_index : Z) :
  _result_set (self w) = Some rs →
  row_count rs ≤ start_index →
  get_rows owner_uri start_index end_index w = (inr [], w).
Proof.
  intros Hr Hge. unfold get_rows, getattr, mbind, M_bind, bind, get_self.
  cbn. rewrite Hr. cbn. rewrite bool_decide_eq_false_2 by lia. done.
Qed.

End SessionProperties.

(** * The session on concrete inputs *)

Section Scenarios.
Import SpecModel.
#[local] Existing Instance collaborators.

(** The statement built for the table [t] with the limit 10. *)
Example construct_initialize_query_t :
  _construct_initialize_query () t_metadata {| limit_results := Some 10 |} = inr t_sql.
Proof. reflexivity. Qed.

(** A first initialization that completes with the three rows makes the
    session ready. *)
Example ready_world_is_ready :
  _is_initialized (self ready_world) = true ∧
  _result_set (self ready_world) = Some t_result_set ∧
  _next_row_id (self ready_world) = Some 3 ∧
  trace ready_world = [MetadataGet "public" "t" "table"; ExecuteQuery t_sql; OnSuccess].
Proof. repeat split. Qed.


(** C3 (the code at the failing input): with the rows (1, a), (2, b),
    (3, c) and a pending edit of column 1 of row 1 to B, [get_rows(0, 3)]
    renders row 1 over the first row of the window: its clean cell shows 1,
    the value of row 0, where the row's own original value is 2. *)
Theorem get_rows_pending_edit_uses_first_row :
  let w := (update_cell 1 1 "B" ready_world).2 in
  (get_rows "uri" 0 3 w).1 =
    inr [ {| id := 0; cells := [clean "1"; clean "a"] |};
          {| id := 1; cells := [clean "1"; dirty "B"] |};
          {| id := 2; cells := [clean "3"; clean "c"] |} ] ∧
  rows t_result_set !! 1%nat = Some (t_row "2" "b") ∧
  (λ edit, get_edit_row edit (t_row "2" "b")) <$> (_session_cache (self w) !! 1) =
    Some {| id := 1; cells := [clean "2"; dirty "B"] |}.
Proof. repeat split. Qed.

(** C4 (counterexample): a completion callback that fails after the
    assignments keeps them.  On a new session, whose table metadata is still
    [None], an executed query with a result set makes the call to [extend]
    raise: [on_failure] is called once, and the session holds the result
    set, the next row identifier 3 and the initialized flag.  Through
    [initialize], an [on_success] that raises has the same effect: the
    failure is reported to [on_failure] and the session is ready. *)
Lemma failed_completion_keeps_adopted_result_set :
  let w := new_world t_factory in
  let r := on_query_execution_complete executed returning returning w in
  let r' := initialize (t_params (Some 10)) () (completing_executer executed)
              raising_on_success returning w in
  (_is_initialized (self w) = false ∧
   trace r.2 = [OnFailure (AttributeError "NoneType" "extend")] ∧
   _result_set (self r.2) = Some t_result_set ∧
   _next_row_id (self r.2) = Some 3 ∧
   _is_initialized (self r.2) = true) ∧
  (trace r'.2 = [MetadataGet "public" "t" "table"; ExecuteQuery t_sql; OnSuccess;
                 OnFailure (CollaboratorError "response not sent")] ∧
   _result_set (self r'.2) = Some t_result_set ∧
   _is_initialized (self r'.2) = true).
Proof. repeat split. Qed.


(** C6 (counterexample): the executer completes at once with a null query
    and [on_failure] raises the error it is given: the execution error
    leaves [initialize] as an exception. *)
Lemma initialize_rethrows_execution_error :
  let r := initialize (t_params (Some 10)) () (completing_executer errored)
             returning reraising (new_world t_factory) in
  r.1 = inl (Exception (Some "connection lost")) ∧
  trace r.2 = [MetadataGet "public" "t" "table"; ExecuteQuery t_sql;
               OnFailure (Exception (Some "connection lost"))].
Proof. repeat split. Qed.

(** C7 (counterexample): a non-null query in the executed status is not
    enough.  Without a first batch, the callback reports an [IndexError] to
    [on_failure]: no result set is adopted, the session is not marked
    initialized and [on_success] is not called.  On a session without table
    metadata, the result set is adopted but [extend] raises, and
    [on_success] is not called either. *)
Lemma executed_query_without_success :
  let r := on_query_execution_complete executed_without_batch returning returning
             initializing_world in
  let r' := on_query_execution_complete executed returning returning
              (new_world t_factory) in
  (trace r.2 = trace initializing_world
               ++ [OnFailure (IndexError "list index out of range")] ∧
   _result_set (self r.2) = None ∧
   _next_row_id (self r.2) = None ∧
   _is_initialized (self r.2) = false) ∧
  (trace r'.2 = [OnFailure (AttributeError "NoneType" "extend")] ∧
   table_metadata (self r'.2) = None).
Proof. repeat split. Qed.

(** *** The theorems at concrete inputs *)


Lemma on_query_execution_complete_failure_keeps_session_witness :
  fails_without_adoption (self initializing_world) queued
    (Exception (Some "Execution not completed")) ∧
  let w' := (on_query_execution_complete queued returning returning
               initializing_world).2 in
  trace w' = trace initializing_world
             ++ [OnFailure (Exception (Some "Execution not completed"))] ∧
  self w' = self initializing_world ∧
  _result_set (self w') = None ∧
  _next_row_id (self w') = None ∧
  _is_initialized (self w') = false.
Proof.
  assert (Hf : fails_without_adoption (self initializing_world) queued
                 (Exception (Some "Execution not completed"))).
  { apply fails_early. eapply fails_not_executed; [reflexivity | discriminate]. }
  split; [exact Hf|].
  exact (on_query_execution_complete_failure_keeps_session initializing_world queued _
           returning returning Hf).
Defined.


Lemma initialize_error_propagation_witness :
  initialize (t_params (Some 10)) () (completing_executer executed) returning returning
    (new_world failing_factory) =
    (inl (CollaboratorError "object not found"),
     {| self := self (new_world failing_factory);
        trace := [MetadataGet "public" "t" "table"] |}) ∧
  fails_before_adoption errored (Exception (Some "connection lost")) ∧
  @returning exn (Exception (Some "connection lost")) = inr () ∧
  (initialize (t_params (Some 10)) () (completing_executer errored) returning returning
     (new_world t_factory)).1 = inr () ∧
  trace (initialize (t_params (Some 10)) () (completing_executer errored) returning
           returning (new_world t_factory)).2 =
    [MetadataGet "public" "t" "table"; ExecuteQuery t_sql;
     OnFailure (Exception (Some "connection lost"))] ∧
  (initialize (t_params (Some 10)) () deferring_executer returning returning
     (new_world t_factory)).1 = inr () ∧
  trace (initialize (t_params (Some 10)) () deferring_executer returning returning
           (new_world t_factory)).2 =
    [MetadataGet "public" "t" "table"; ExecuteQuery t_sql].
Proof.
  destruct (initialize_error_propagation (new_world failing_factory)
              (t_params (Some 10)) () returning returning) as [Ha _].
  destruct (initialize_error_propagation (new_world t_factory)
              (t_params (Some 10)) () returning returning) as (_ & Hb & _ & Hd).
  assert (Hf : fails_before_adoption errored (Exception (Some "connection lost"))).
  { exact (fails_no_query errored eq_refl). }
  split; [exact (Ha (completing_executer executed) _ eq_refl)|].
  split; [exact Hf|]. split; [reflexivity|].
  pose proof (Hd t_metadata t_sql errored _ eq_refl eq_refl Hf eq_refl) as Hi.
  pose proof (Hb deferring_executer t_metadata t_sql eq_refl eq_refl) as He.
  unfold completing_executer. rewrite Hi, He.
  repeat split; reflexivity.
Defined.

Lemma on_query_execution_complete_adopts_witness :
  let w' := (on_query_execution_complete executed returning returning
               initializing_world).2 in
  _result_set (self w') = Some t_result_set ∧
  _next_row_id (self w') = Some 3 ∧
  _is_initialized (self w') = true ∧
  table_metadata (self w') = Some (extend_metadata t_metadata (columns t_result_set)) ∧
  _session_cache (self w') = ∅ ∧
  ∃ evs, trace w' = trace initializing_world ++ OnSuccess :: evs ∧ successes evs = 0%nat.
Proof.
  exact (on_query_execution_complete_adopts initializing_world executed _ _ _
           t_result_set t_metadata returning returning
           eq_refl eq_refl eq_refl eq_refl eq_refl).
Defined.

Lemma update_cell_cache_entries_witness :
  let w1 := (update_cell 1 1 "B" ready_world).2 in
  let r2 := update_cell 1 0 "9" w1 in
  let e1 := {| row_id := 1;
               bound_result_set := _result_set (self ready_world);
               bound_table_metadata := table_metadata (self ready_world);
               _cell_updates := {[ 1 := "B" ]} |} in
  _session_cache (self w1) !! 1 = Some e1 ∧
  _session_cache (self r2.2) !! 1 = Some (RowUpdate_set_cell_value e1 0 "9").1 ∧
  dom (_session_cache (self r2.2)) = dom (_session_cache (self w1)) ∧
  size (_session_cache (self r2.2)) = size (_session_cache (self w1)).
Proof.
  intros w1 r2 e1.
  assert (H1 : _session_cache (self w1) !! 1 = Some e1) by reflexivity.
  destruct (update_cell_cache_entries ready_world 1 1 0 "B" "9")
    as (_ & _ & _ & Hsame).
  destruct (Hsame e1 H1) as (_ & Hl & Hd & Hz).
  split; [exact H1|]. split; [exact Hl|]. split; [exact Hd | exact Hz].
Defined.

Lemma get_rows_past_the_end_witness :
  _result_set (self ready_world) = Some t_result_set ∧
  row_count t_result_set ≤ 3 ∧
  get_rows "uri" 3 5 ready_world = (inr [], ready_world).
Proof.
  assert (Hle : row_count t_result_set ≤ 3) by (vm_compute; discriminate).
  split; [reflexivity|]. split; [exact Hle|].
  exact (get_rows_past_the_end ready_world t_result_set "uri" 3 5 eq_refl Hle).
Defined.

Lemma update_cell_any_row_id_witness :
  let e := {| row_id := -1;
              bound_result_set := _result_set (self ready_world);
              bound_table_metadata := table_metadata (self ready_world);
              _cell_updates := ∅ |} in
  let r := update_cell (-1) 0 "x" ready_world in
  (_session_cache (self ready_world) !! (-1) = None ∧
   RowUpdate (-1) (_result_set (self ready_world)) (table_metadata (self ready_world))
     = inr e) ∧
  -1 < 0 ∧
  r.1 = (RowUpdate_set_cell_value e 0 "x").2 ∧
  _session_cache (self r.2) !! (-1) = Some (RowUpdate_set_cell_value e 0 "x").1.
Proof.
  intros e r.
  assert (Hn : _session_cache (self ready_world) !! (-1) = None ∧
               RowUpdate (-1) (_result_set (self ready_world))
                 (table_metadata (self ready_world)) = inr e)
    by (split; reflexivity).
  split; [exact Hn|]. split; [reflexivity|].
  exact (update_cell_any_row_id ready_world (-1) 0 "x" e (or_intror Hn)).
Defined.

End Scenarios.

(** * Further properties of the session *)

Section FurtherProperties.
Context `{Collaborators}.

Ltac run :=
  unfold on_query_execution_complete, on_query_execution_complete_body,
    initialize, update_cell, get_rows, _validate_query_for_session,
    call_on_success, call_on_failure, call_query_executer, call_metadata_get,
    set_session_cache, set_next_row_id, set_is_initialized, set_result_set,
    set_table_metadata, getattr, index0, try_except,
    mbind, mret, M_bind, M_ret, bind, ret, raise, lift, get_self, put_self, log;
  cbn.

(** *** The text of the initialization query *)

Lemma append_assoc (a b c : string) : (a +:+ b) +:+ c = a +:+ (b +:+ c).
Proof.
  induction a as [|x a IH]; [done|].
  exact (f_equal (String x) IH).
Qed.

(** The column list: the identifiers joined by [sql.SQL(', ').join] render
    as the quoted names separated by a comma and a space. *)
Lemma as_string_join_identifiers {A} (conn : connection) (name : A → string)
    (l : list A) :
  as_string conn (Composed (SQL_join ", " ((λ c, Identifier (name c)) <$> l))) =
    String.concat ", " ((λ c, quote_ident conn (name c)) <$> l).
Proof.
  induction l as [|a [|b l] IH].
  - done.
  - cbn. apply append_empty_r.
  - change (quote_ident conn (name a) +:+ (", " +:+
              as_string conn
                (Composed (SQL_join ", " ((λ c, Identifier (name c)) <$> b :: l)))) =
            quote_ident conn (name a) +:+ (", " +:+
              String.concat ", " ((λ c, quote_ident conn (name c)) <$> b :: l))).
    by rewrite IH.
Qed.

(** X1: with a positive limit the builder returns the statement
    [SELECT <columns> FROM <table>  LIMIT <n>]: every column of the metadata,
    in order, each rendered through the driver's identifier quoting and
    joined with a comma and a space; the escaped multipart name quoted as
    one identifier; the limit in decimal. *)
Theorem construct_initialize_query_text (conn : connection)
    (md : EditTableMetadata) (fs : EditInitializerFilter) (n : Z) :
  limit_results fs = Some n →
  n > 0 →
  _construct_initialize_query conn md fs =
    inr ("SELECT "
         +:+ String.concat ", "
               ((λ column, quote_ident conn (escaped_name column)) <$> column_metadata md)
         +:+ " FROM " +:+ quote_ident conn (escaped_multipart_name md)
         +:+ " " +:+ " LIMIT " +:+ str n).
Proof.
  intros Hl Hn.
  rewrite (construct_initialize_query_with_limit conn md fs n Hl Hn).
  by rewrite (as_string_join_identifiers conn escaped_name (column_metadata md)).
Qed.

(** X2: the builder returns a statement exactly when the filter carries a
    positive limit. *)
Theorem construct_initialize_query_returns_iff (conn : connection)
    (md : EditTableMetadata) (fs : EditInitializerFilter) :
  (∃ sql, _construct_initialize_query conn md fs = inr sql) ↔
  (∃ n, limit_results fs = Some n ∧ n > 0).
Proof.
  split.
  - intros [sql Hs]. destruct (limit_results fs) as [n|] eqn:Hl.
    + destruct (decide (n > 0)) as [Hn|Hn]; [by exists n|].
      rewrite construct_initialize_query_unbound_limit in Hs; [done|].
      intros m Hm. rewrite Hl in Hm. injection Hm as <-. lia.
    + rewrite construct_initialize_query_unbound_limit in Hs; [done|].
      intros m Hm. by rewrite Hl in Hm.
  - intros (n & Hl & Hn).
    rewrite (construct_initialize_query_with_limit conn md fs n Hl Hn). by eexists.
Qed.

(** *** [initialize] *)

(** X3: when the metadata is resolved but the filter carries no positive
    limit, [initialize] raises the builder's [UnboundLocalError] to its
    caller: the query executer is never called and neither callback is; the
    resolved metadata has already been assigned to the session. *)
Theorem initialize_without_limit (w : World) (p : InitializeEditParams)
    (conn : connection) (query_executer : QueryExecuter)
    (on_success : Callable ()) (on_failure : Callable exn) (md : EditTableMetadata) :
  _metadata_factory (self w) conn (schema_name p) (object_name p) (object_type p)
    = inr md →
  (∀ n, limit_results (filters p) = Some n → n ≤ 0) →
  initialize p conn query_executer on_success on_failure w =
    (inl (UnboundLocalError "limit_clause"),
     {| self := {| _session_cache := _session_cache (self w);
                   _metadata_factory := _metadata_factory (self w);
                   _next_row_id := _next_row_id (self w);
                   _is_initialized := _is_initialized (self w);
                   _result_set := _result_set (self w);
                   table_metadata := Some md |};
        trace := trace w ++ [MetadataGet (schema_name p) (object_name p) (object_type p)] |}).
Proof.
  intros Hf Hn. run. rewrite Hf. cbn.
  by rewrite (construct_initialize_query_unbound_limit conn md (filters p) Hn).
Qed.

(** X4: a successful initialization from end to end.  When the factory
    resolves the metadata, the query is built, the executer completes at
    once with an executed query whose first batch holds a result set and
    [on_success] returns, [initialize] returns; the session holds that
    result set, its row count as next row identifier, the initialized flag
    and the factory's metadata extended with the result set's columns
    (whatever metadata it held before), its cache is untouched, and the
    calls made are one to the factory, one to the executer and one to
    [on_success]. *)
Theorem initialize_completes (w : World) (p : InitializeEditParams)
    (conn : connection) (on_success : Callable ()) (on_failure : Callable exn)
    (md : EditTableMetadata) (sql : string) (es : DataEditSessionExecutionState)
    (q : Query) (b : Batch) (bs : list Batch) (rs : ResultSet) :
  _metadata_factory (self w) conn (schema_name p) (object_name p) (object_type p)
    = inr md →
  _construct_initialize_query conn md (filters p) = inr sql →
  query es = Some q →
  execution_state q = EXECUTED →
  batches q = b :: bs →
  result_set b = Some rs →
  on_success () = inr () →
  initialize p conn (λ _ on_complete, on_complete es) on_success on_failure w =
    (inr (),
     {| self := {| _session_cache := _session_cache (self w);
                   _metadata_factory := _metadata_factory (self w);
                   _next_row_id := Some (row_count rs);
                   _is_initialized := true;
                   _result_set := Some rs;
                   table_metadata := Some (extend md (columns rs)) |};
        trace := trace w ++ [MetadataGet (schema_name p) (object_name p) (object_type p);
                             ExecuteQuery sql; OnSuccess] |}).
Proof.
  intros Hf Hq Hes Hx Hb Hr Hs.
  unfold initialize, call_metadata_get, call_query_executer, set_table_metadata.
  unfold mbind, M_bind, bind, get_self, log, lift, put_self.
  cbn. rewrite Hf, Hq. cbn.
  unfold on_query_execution_complete, try_except.
  erewrite (body_adopts _ es q b bs rs md on_success Hes Hx Hb Hr); [|reflexivity].
  rewrite Hs. cbn. by rewrite <- !app_assoc.
Qed.

(** *** The completion callback *)

(** X5: the completion callback never touches the edit cache or the
    metadata factory, whatever the execution state and the outcome: the
    pending edits made before a (re-)initialization completes are all still
    in the cache afterwards. *)
Theorem on_query_execution_complete_keeps_cache (w : World)
    (es : DataEditSessionExecutionState)
    (on_success : Callable ()) (on_failure : Callable exn) :
  let w' := (on_query_execution_complete es on_success on_failure w).2 in
  _session_cache (self w') = _session_cache (self w) ∧
  _metadata_factory (self w') = _metadata_factory (self w).
Proof.
  intros w'. subst w'. run.
  destruct (query es) as [q|]; cbn; [|done].
  destruct (decide (execution_state q ≠ EXECUTED)); cbn; [done|].
  destruct (batches q) as [|b bs]; cbn; [done|].
  destruct (result_set b) as [rs|]; cbn; [|done].
  destruct (table_metadata (self w)) as [md|]; cbn; [|done].
  destruct (on_success ()) as [err|[]]; [|done].
  by destruct (is_Exception err).
Qed.


(** X7: the initialized flag outlives the result set.  On a session that is
    marked initialized, a completion with an executed query whose first
    batch holds no result set reports an [AttributeError] to [on_failure];
    the session's result set is then [None] while the flag is still set,
    and [get_rows] on it raises. *)
Theorem on_query_execution_complete_drops_result_set (w : World)
    (es : DataEditSessionExecutionState) (q : Query) (b : Batch) (bs : list Batch)
    (on_success : Callable ()) (on_failure : Callable exn) :
  _is_initialized (self w) = true →
  query es = Some q →
  execution_state q = EXECUTED →
  batches q = b :: bs →
  result_set b = None →
  let w' := (on_query_execution_complete es on_success on_failure w).2 in
  trace w' = trace w ++ [OnFailure (AttributeError "NoneType" "row_count")] ∧
  _result_set (self w') = None ∧
  _is_initialized (self w') = true ∧
  ∀ owner_uri start_index end_index,
    get_rows owner_uri start_index end_index w' =
      (inl (AttributeError "NoneType" "row_count"), w').
Proof.
  intros Hi Hq Hx Hb Hr w'.
  assert (Hw : w' = {| self := {| _session_cache := _session_cache (self w);
                                  _metadata_factory := _metadata_factory (self w);
                                  _next_row_id := _next_row_id (self w);
                                  _is_initialized := _is_initialized (self w);
                                  _result_set := None;
                                  table_metadata := table_metadata (self w) |};
                       trace := trace w ++ [OnFailure (AttributeError "NoneType" "row_count")] |}).
  { subst w'. run. rewrite Hq. cbn.
    rewrite decide_False by (intros Hne; by apply Hne). rewrite Hb. cbn.
    rewrite Hr. cbn.
    by destruct (on_failure (AttributeError "NoneType" "row_count")). }
  rewrite Hw. cbn. split; [done|]. split; [done|]. split; [done|].
  intros owner_uri start_index end_index. by run.
Qed.

(** *** [update_cell] *)

(** X8: [update_cell] changes nothing of the session but the cache: the
    result set, the table metadata, the next row identifier, the
    initialized flag and the factory are as before, and no callback,
    executer or factory is called. *)
Theorem update_cell_changes_cache_only (w : World) (row_id column_index : Z)
    (new_value : string) :
  let w' := (update_cell row_id column_index new_value w).2 in
  _result_set (self w') = _result_set (self w) ∧
  table_metadata (self w') = table_metadata (self w) ∧
  _next_row_id (self w') = _next_row_id (self w) ∧
  _is_initialized (self w') = _is_initialized (self w) ∧
  _metadata_factory (self w') = _metadata_factory (self w) ∧
  trace w' = trace w.
Proof.
  intros w'. subst w'.
  destruct (_session_cache (self w) !! row_id) as [e|] eqn:Hc.
  - by rewrite (update_cell_cached w _ _ _ e Hc).
  - destruct (RowUpdate row_id (_result_set (self w)) (table_metadata (self w)))
      as [err|e] eqn:Hn.
    + by rewrite (update_cell_not_created w _ _ _ err Hc Hn).
    + by rewrite (update_cell_created w _ _ _ e Hc Hn).
Qed.

(** X9: a first edit of a row adds exactly one entry to the cache when the
    constructor of the pending-edit entity returns, also when
    [set_cell_value] then rejects the edit; it adds none when the constructor
    raises. *)
Theorem update_cell_first_edit_size (w : World) (row_id column_index : Z)
    (new_value : string) :
  _session_cache (self w) !! row_id = None →
  size (_session_cache (self (update_cell row_id column_index new_value w).2)) =
    match RowUpdate row_id (_result_set (self w)) (table_metadata (self w)) with
    | inr _ => S (size (_session_cache (self w)))
    | inl _ => size (_session_cache (self w))
    end.
Proof.
  intros Hc.
  destruct (RowUpdate row_id (_result_set (self w)) (table_metadata (self w)))
    as [err|e] eqn:Hn.
  - by rewrite (update_cell_not_created w _ _ _ err Hc Hn).
  - rewrite (update_cell_created w _ _ _ e Hc Hn). cbn.
    by apply map_size_insert_None.
Qed.

(** *** [get_rows] *)

(** The loop of [get_rows] leaves the world as it was. *)
Lemma get_rows_loop_world (subset : ResultSetSubset) (start_index : Z)
    (todo : list (list DbCellValue)) :
  ∀ (index : Z) (edit_rows : list EditRow) (w : World),
    (get_rows_loop subset start_index index todo edit_rows w).2 = w.
Proof.
  induction todo as [|row todo IH]; intros index edit_rows w; [done|].
  cbn [get_rows_loop]. unfold mbind, M_bind, bind, get_self, index0, mret, ret, raise.
  cbn. destruct (_session_cache (self w) !! (start_index + index)); cbn.
  - destruct (subset_rows subset); cbn; [done|]. apply IH.
  - apply IH.
Qed.

(** X10: [get_rows] is read-only: whatever the session, the index range and
    the outcome (rows returned or exception raised), the session object and
    the trace of outgoing calls are afterwards what they were; no cache entry
    is created by reading. *)
Theorem get_rows_read_only (w : World) (owner_uri : string)
    (start_index end_index : Z) :
  (get_rows owner_uri start_index end_index w).2 = w.
Proof.
  unfold get_rows, getattr, mbind, M_bind, bind, get_self, raise, mret, ret. cbn.
  destruct (_result_set (self w)) as [rs|]; cbn; [|done].
  apply get_rows_loop_world.
Qed.

(** X11: on a session that holds a result set, for a start index below the
    row count, [get_rows] returns one [EditRow] per row of the window, and a
    row of the window without a pending edit comes back under the identifier
    [start_index] plus its offset, with its own display values and no dirty
    flag. *)
Theorem get_rows_unedited_rows (w : World) (rs : ResultSet) (owner_uri : string)
    (start_index end_index : Z) :
  _result_set (self w) = Some rs →
  start_index < row_count rs →
  ∃ edit_rows,
    (get_rows owner_uri start_index end_index w).1 = inr edit_rows ∧
    length edit_rows = length (subset_rows (from_result_set rs start_index end_index)) ∧
    ∀ (i : nat) (row : list DbCellValue),
      subset_rows (from_result_set rs start_index end_index) !! i = Some row →
      _session_cache (self w) !! (start_index + Z.of_nat i) = None →
      edit_rows !! i =
        Some {| id := start_index + Z.of_nat i;
                cells := (λ cell, {| cell_value := display_value cell;
                                     is_dirty := false |}) <$> row |}.
Proof.
  intros Hr Hlt. rewrite (get_rows_window w rs owner_uri _ end_index Hr Hlt).
  eexists. split; [done|]. split; [apply length_imap|].
  intros i row Hi Hc. rewrite list_lookup_imap, Hi. cbn.
  unfold rendered_row. by rewrite Hc.
Qed.

(** X12: the first row of the window, when it has a pending edit, is
    rendered by its pending-edit entity over that row itself; so
    [get_rows(i, i + 1)] shows the pending edit of row [i] over the row the
    window gives for [i]. *)
Theorem get_rows_first_row_edited (w : World) (rs : ResultSet) (owner_uri : string)
    (start_index end_index : Z) (row0 : list DbCellValue)
    (others : list (list DbCellValue)) (e : RowEdit) :
  _result_set (self w) = Some rs →
  start_index < row_count rs →
  subset_rows (from_result_set rs start_index end_index) = row0 :: others →
  _session_cache (self w) !! start_index = Some e →
  ∃ edit_rows,
    (get_rows owner_uri start_index end_index w).1 = inr (get_edit_row e row0 :: edit_rows).
Proof.
  intros Hr Hlt Hw Hc. rewrite (get_rows_window w rs owner_uri _ end_index Hr Hlt).
  rewrite Hw. cbn. unfold rendered_row at 1.
  replace (start_index + Z.of_nat 0) with start_index by lia. rewrite Hc.
  by eexists.
Qed.

(** X13: [get_rows] has no lower bound on [start_index]: a negative start
    index is below every row count, so the window is asked of the result
    set with that index, and the rows it gives are returned under the
    identifiers [start_index], [start_index + 1], ..., the first of them
    negative. *)
Theorem get_rows_negative_start (w : World) (rs : ResultSet) (owner_uri : string)
    (start_index end_index : Z) :
  _result_set (self w) = Some rs →
  start_index < 0 →
  (get_rows owner_uri start_index end_index w).1 =
    inr (imap (λ i row,
                 rendered_row (_session_cache (self w))
                   (default row (head (subset_rows (from_result_set rs start_index end_index))))
                   (start_index + Z.of_nat i) row)
           (subset_rows (from_result_set rs start_index end_index))).
Proof.
  intros Hr Hneg.
  assert (Hlt : start_index < row_count rs) by (unfold row_count; lia).
  by rewrite (get_rows_window w rs owner_uri _ end_index Hr Hlt).
Qed.

(** *** [update_cell] followed by [get_rows] *)

(** X14: an edit is visible to the next read.  After [update_cell] on a
    row (with a cache entry, or one the constructor returns an entity for),
    [get_rows] starting at that row renders it by the entity that
    [set_cell_value] left, whether [set_cell_value] accepted the edit or
    raised. *)
Theorem update_cell_then_get_rows (w : World) (rs : ResultSet)
    (row_id column_index : Z) (new_value : string) (e : RowEdit)
    (owner_uri : string) (end_index : Z) (row0 : list DbCellValue)
    (others : list (list DbCellValue)) :
  _session_cache (self w) !! row_id = Some e ∨
  (_session_cache (self w) !! row_id = None ∧
   RowUpdate row_id (_result_set (self w)) (table_metadata (self w)) = inr e) →
  _result_set (self w) = Some rs →
  row_id < row_count rs →
  subset_rows (from_result_set rs row_id end_index) = row0 :: others →
  ∃ edit_rows,
    (get_rows owner_uri row_id end_index
       (update_cell row_id column_index new_value w).2).1 =
      inr (get_edit_row (set_cell_value e column_index new_value).1 row0 :: edit_rows).
Proof.
  intros He Hr Hlt Hw.
  assert (Hu : (update_cell row_id column_index new_value w).2 =
               with_session_cache
                 (<[row_id := (set_cell_value e column_index new_value).1]>
                    (_session_cache (self w))) w).
  { destruct He as [Hc | [Hc Hn]].
    - by rewrite (update_cell_cached w _ _ _ e Hc).
    - by rewrite (update_cell_created w _ _ _ e Hc Hn). }
  rewrite Hu.
  erewrite (get_rows_window _ rs owner_uri row_id end_index); [|exact Hr|exact Hlt].
  rewrite Hw. cbn. unfold rendered_row at 1.
  replace (row_id + Z.of_nat 0) with row_id by lia. rewrite lookup_insert_eq.
  by eexists.
Qed.

(** X15: an edit of one row does not change how the other rows read: a
    window that does not contain the edited row is returned by [get_rows]
    after [update_cell] as it was before. *)
Theorem update_cell_keeps_other_rows (w : World) (rs : ResultSet)
    (row_id column_index : Z) (new_value : string)
    (owner_uri : string) (start_index end_index : Z) :
  _result_set (self w) = Some rs →
  start_index < row_count rs →
  (∀ i : nat,
     (i < length (subset_rows (from_result_set rs start_index end_index)))%nat →
     start_index + Z.of_nat i ≠ row_id) →
  (get_rows owner_uri start_index end_index
     (update_cell row_id column_index new_value w).2).1 =
  (get_rows owner_uri start_index end_index w).1.
Proof.
  intros Hr Hlt Hout.
  set (w' := (update_cell row_id column_index new_value w).2).
  assert (Hr' : _result_set (self w') = Some rs).
  { subst w'.
    destruct (_session_cache (self w) !! row_id) as [e|] eqn:Hc.
    - by rewrite (update_cell_cached w _ _ _ e Hc).
    - destruct (RowUpdate row_id (_result_set (self w)) (table_metadata (self w)))
        as [err|e] eqn:Hn.
      + by rewrite (update_cell_not_created w _ _ _ err Hc Hn).
      + by rewrite (update_cell_created w _ _ _ e Hc Hn). }
  rewrite (get_rows_window w' rs owner_uri _ end_index Hr' Hlt).
  rewrite (get_rows_window w rs owner_uri _ end_index Hr Hlt).
  cbn. f_equal. apply imap_ext. intros i row Hi. cbn.
  assert (Hne : start_index + Z.of_nat i ≠ row_id).
  { apply Hout. by apply lookup_lt_Some in Hi. }
  unfold rendered_row.
  destruct (update_cell_cache w row_id column_index new_value) as [Hc | [e Hc]];
    fold w' in Hc; rewrite Hc; [done|].
  by rewrite lookup_insert_ne.
Qed.

End FurtherProperties.

(** * The further properties on concrete inputs *)

Section FurtherScenarios.
Import SpecModel.
#[local] Existing Instance collaborators.

Lemma construct_initialize_query_text_witness :
  limit_results {| limit_results := Some 10 |} = Some 10 ∧
  10 > 0 ∧
  _construct_initialize_query () t_metadata {| limit_results := Some 10 |} = inr t_sql.
Proof.
  split; [reflexivity|]. split; [reflexivity|].
  exact (construct_initialize_query_text () t_metadata {| limit_results := Some 10 |} 10
           eq_refl eq_refl).
Defined.

Lemma initialize_without_limit_witness :
  (∀ n, limit_results (filters (t_params None)) = Some n → n ≤ 0) ∧
  (initialize (t_params None) () (completing_executer executed) returning returning
     (new_world t_factory)).1 = inl (UnboundLocalError "limit_clause") ∧
  trace (initialize (t_params None) () (completing_executer executed) returning returning
           (new_world t_factory)).2 = [MetadataGet "public" "t" "table"] ∧
  table_metadata (self (initialize (t_params None) () (completing_executer executed)
                          returning returning (new_world t_factory)).2) = Some t_metadata.
Proof.
  assert (Hn : ∀ n, limit_results (filters (t_params None)) = Some n → n ≤ 0)
    by (intros n Hn; discriminate).
  split; [exact Hn|].
  rewrite (initialize_without_limit (new_world t_factory) (t_params None) ()
             (completing_executer executed) returning returning t_metadata eq_refl Hn).
  repeat split.
Defined.

Lemma initialize_completes_witness :
  initialize (t_params (Some 10)) () (completing_executer executed) returning returning
    (new_world t_factory) =
    (inr (),
     {| self := {| _session_cache := ∅;
                   _metadata_factory := t_factory;
                   _next_row_id := Some 3;
                   _is_initialized := true;
                   _result_set := Some t_result_set;
                   table_metadata := Some (extend_metadata t_metadata (columns t_result_set)) |};
        trace := [MetadataGet "public" "t" "table"; ExecuteQuery t_sql; OnSuccess] |}).
Proof.
  exact (initialize_completes (new_world t_factory) (t_params (Some 10)) ()
           returning returning t_metadata t_sql executed _ _ _ t_result_set
           eq_refl eq_refl eq_refl eq_refl eq_refl eq_refl eq_refl).
Defined.


Lemma on_query_execution_complete_drops_result_set_witness :
  let es := {| query := Some {| execution_state := EXECUTED;
                                batches := [ {| result_set := None |} ] |};
               message := None |} in
  let w' := (on_query_execution_complete es returning returning ready_world).2 in
  _is_initialized (self ready_world) = true ∧
  _result_set (self ready_world) = Some t_result_set ∧
  _result_set (self w') = None ∧
  _is_initialized (self w') = true ∧
  get_rows "uri" 0 3 w' = (inl (AttributeError "NoneType" "row_count"), w').
Proof.
  intros es w'.
  destruct (on_query_execution_complete_drops_result_set ready_world es _ _ _
              returning returning eq_refl eq_refl eq_refl eq_refl eq_refl)
    as (_ & Hr & Hi & Hg).
  split; [reflexivity|]. split; [reflexivity|]. split; [exact Hr|].
  split; [exact Hi | exact (Hg "uri" 0 3)].
Defined.

Lemma update_cell_first_edit_size_witness :
  _session_cache (self ready_world) !! 1 = None ∧
  size (_session_cache (self (update_cell 1 1 "B" ready_world).2)) = 1%nat ∧
  (update_cell 1 7 "B" ready_world).1 = inl (CollaboratorError "column index out of range") ∧
  size (_session_cache (self (update_cell 1 7 "B" ready_world).2)) = 1%nat.
Proof.
  split; [reflexivity|]. split; [|split; [reflexivity|]].
  - exact (update_cell_first_edit_size ready_world 1 1 "B" eq_refl).
  - exact (update_cell_first_edit_size ready_world 1 7 "B" eq_refl).
Defined.

Lemma get_rows_unedited_rows_witness :
  _result_set (self ready_world) = Some t_result_set ∧
  0 < row_count t_result_set ∧
  ∃ edit_rows,
    (get_rows "uri" 0 3 ready_world).1 = inr edit_rows ∧
    length edit_rows = 3%nat ∧
    edit_rows !! 2%nat = Some {| id := 2; cells := [clean "3"; clean "c"] |}.
Proof.
  split; [reflexivity|]. split; [reflexivity|].
  destruct (get_rows_unedited_rows ready_world t_result_set "uri" 0 3 eq_refl eq_refl)
    as (edit_rows & Hg & Hl & Hrow).
  exists edit_rows. split; [exact Hg|]. split; [exact Hl|].
  exact (Hrow 2%nat (t_row "3" "c") eq_refl eq_refl).
Defined.

Lemma get_rows_first_row_edited_witness :
  let w := (update_cell 1 1 "B" ready_world).2 in
  _result_set (self w) = Some t_result_set ∧
  1 < row_count t_result_set ∧
  subset_rows (window t_result_set 1 2) = [t_row "2" "b"] ∧
  ∃ e edit_rows,
    _session_cache (self w) !! 1 = Some e ∧
    get_edit_row e (t_row "2" "b") = {| id := 1; cells := [clean "2"; dirty "B"] |} ∧
    (get_rows "uri" 1 2 w).1 = inr (get_edit_row e (t_row "2" "b") :: edit_rows).
Proof.
  intros w.
  split; [reflexivity|]. split; [reflexivity|]. split; [reflexivity|].
  destruct (_session_cache (self w) !! 1) as [e|] eqn:He; [|discriminate He].
  destruct (get_rows_first_row_edited w t_result_set "uri" 1 2 (t_row "2" "b") [] e
              eq_refl eq_refl eq_refl He) as [edit_rows Hg].
  exists e, edit_rows. split; [reflexivity|]. split; [|exact Hg].
  vm_compute in He. injection He as <-. reflexivity.
Defined.

Lemma get_rows_negative_start_witness :
  _result_set (self ready_world) = Some t_result_set ∧
  -1 < 0 ∧
  (get_rows "uri" (-1) 2 ready_world).1 =
    inr [ {| id := -1; cells := [clean "1"; clean "a"] |};
          {| id := 0; cells := [clean "2"; clean "b"] |} ].
Proof.
  split; [reflexivity|]. split; [reflexivity|].
  rewrite (get_rows_negative_start ready_world t_result_set "uri" (-1) 2 eq_refl eq_refl).
  reflexivity.
Defined.

Lemma update_cell_then_get_rows_witness :
  let e := {| row_id := 1;
              bound_result_set := _result_set (self ready_world);
              bound_table_metadata := table_metadata (self ready_world);
              _cell_updates := ∅ |} in
  (_session_cache (self ready_world) !! 1 = None ∧
   RowUpdate 1 (_result_set (self ready_world)) (table_metadata (self ready_world))
     = inr e) ∧
  1 < row_count t_result_set ∧
  ∃ edit_rows,
    (get_rows "uri" 1 3 (update_cell 1 1 "B" ready_world).2).1 =
      inr ({| id := 1; cells := [clean "2"; dirty "B"] |} :: edit_rows).
Proof.
  intros e.
  assert (Hn : _session_cache (self ready_world) !! 1 = None ∧
               RowUpdate 1 (_result_set (self ready_world))
                 (table_metadata (self ready_world)) = inr e)
    by (split; reflexivity).
  split; [exact Hn|]. split; [reflexivity|].
  exact (update_cell_then_get_rows ready_world t_result_set 1 1 "B" e "uri" 3
           (t_row "2" "b") [t_row "3" "c"] (or_intror Hn) eq_refl eq_refl eq_refl).
Defined.

Lemma update_cell_keeps_other_rows_witness :
  (∀ i : nat, (i < length (subset_rows (from_result_set t_result_set 0 2)))%nat →
              0 + Z.of_nat i ≠ 2) ∧
  (get_rows "uri" 0 2 (update_cell 2 1 "C" ready_world).2).1 =
    inr [ {| id := 0; cells := [clean "1"; clean "a"] |};
          {| id := 1; cells := [clean "2"; clean "b"] |} ].
Proof.
  assert (Hout : ∀ i : nat,
            (i < length (subset_rows (from_result_set t_result_set 0 2)))%nat →
            0 + Z.of_nat i ≠ 2).
  { intros i Hi. change (i < 2)%nat in Hi. lia. }
  split; [exact Hout|].
  rewrite (update_cell_keeps_other_rows ready_world t_result_set 2 1 "C" "uri" 0 2
             eq_refl eq_refl Hout).
  reflexivity.
Defined.

End FurtherScenarios.
